(** * AbstractStartLiveStreamDialog: lifecycle, state merges and handlers

    A shallow embedding of
    [react/features/recording/components/LiveStream/AbstractStartLiveStreamDialog.js].

    The component is JavaScript checked by Flow, so its data are dynamic
    values: a field that Flow types [?string] holds a string, [null] or
    [undefined], and the handlers branch on truthiness.  The embedding keeps
    that: objects are finite maps from property names to values, a property
    that is absent reads as [undefined], reading a property of [null] or
    [undefined] throws, and every method is a computation that threads the
    component instance, logs the calls made to the collaborators and either
    returns or throws. *)

From Stdlib Require Import ZArith.
From stdpp Require Import gmap strings list fin_maps.

Open Scope string_scope.

(** ** JavaScript values *)

Module Js.

(** The values the dialog handles.  [VConference] is a handle on the
    [JitsiConference] of the current conference, an object of the host
    library whose methods are not part of this file. *)
#[warnings="-register-all"]
Inductive value : Type :=
| VUndefined
| VNull
| VBool (b : bool)
| VNum (n : Z)
| VStr (s : string)
| VObj (m : gmap string value)
| VArr (l : list value)
| VConference (c : nat).

Inductive exn : Type :=
| TypeError.

(** ToBoolean.  The numbers of the dialog are integers (the Google API
    state), so [NaN] does not arise. *)
Definition truthy (v : value) : bool :=
  match v with
  | VUndefined | VNull => false
  | VBool b => b
  | VNum n => negb (n =? 0)%Z
  | VStr s => negb (String.eqb s "")
  | VObj _ | VArr _ | VConference _ => true
  end.

(** [a || b] on operands whose evaluation has no effect. *)
Definition or (a b : value) : value := if truthy a then a else b.

(** [a === b].  Primitives are compared by value, and the comparison is
    exact as soon as one operand is a primitive.  Two objects or two arrays
    are strictly equal when they are the same reference, which a value
    without an address cannot tell: there the answer [false] stands for the
    comparison of two distinct references.  The only [===] of this file has
    the Flow type [?string] on its right; every property below whose
    conclusion depends on the outcome of the comparison fixes a string
    there. *)
Definition strict_eq (a b : value) : bool :=
  match a, b with
  | VUndefined, VUndefined => true
  | VNull, VNull => true
  | VBool x, VBool y => Bool.eqb x y
  | VNum x, VNum y => (x =? y)%Z
  | VStr x, VStr y => String.eqb x y
  | VConference x, VConference y => Nat.eqb x y
  | _, _ => false
  end.

(** [o.k] and [o['k']]: a [TypeError] on [null] and [undefined]; on an
    object the property, [undefined] when it is absent.  None of the names
    this file reads ([boundStreamID], [id], [conference], [streamKey], the
    feature names, ...) is defined on the prototype of a primitive or of an
    array, so there the read is [undefined] too; the conference is opaque
    and is given none of them. *)
Definition get (o : value) (k : string) : exn + value :=
  match o with
  | VUndefined | VNull => inl TypeError
  | VObj m => inr (default VUndefined (m !! k))
  | _ => inr VUndefined
  end.

(** A field of [this.state] or [this.props], which are always objects. *)
Definition field (m : gmap string value) (k : string) : value :=
  default VUndefined (m !! k).

End Js.

(** ** Computations

    A method runs against a mutable target [S] (the component instance for
    the methods of the class, the store for the selector), makes calls to
    its collaborators, and returns or throws.  A computation is a function
    from the target to the outcome, the target afterwards and the calls made,
    oldest first. *)

Module Comp.
Import Js.

(** Modelled from the spec: [JitsiRecordingConstants.mode] is imported from
    [base/lib-jitsi-meet], which is not among the sources; the spec gives it
    as [mode: enum{STREAM,...}]. *)
Inductive RecordingMode : Type :=
| FILE
| STREAM.

(** The object literal passed to [startRecording]. *)
Record RecordingOptions : Type := mkOptions {
  broadcastId : value;
  mode : RecordingMode;
  streamId : value
}.

(** [createRecordingDialogEvent(dialogName, buttonName)] is a factory of
    [analytics], kept uninterpreted: an event is the pair of its arguments. *)
Inductive AnalyticsEvent : Type :=
| createRecordingDialogEvent (dialogName buttonName : string).

(** The calls that leave the component. *)
Inductive call : Type :=
| SendAnalytics (event : AnalyticsEvent)
| StartRecording (conference : nat) (options : RecordingOptions)
| OnInitializeGoogleApi.

Inductive outcome (A : Type) : Type :=
| Return (a : A)
| Throw (e : exn).
Arguments Return {A} a.
Arguments Throw {A} e.

Record ran (S A : Type) : Type := mkRan {
  result : outcome A;
  final : S;
  calls : list call
}.
Arguments mkRan {S A} result final calls.
Arguments result {S A} r.
Arguments final {S A} r.
Arguments calls {S A} r.

Definition M (S A : Type) : Type := S → ran S A.

Definition ret {S A} (a : A) : M S A := λ s, mkRan (Return a) s [].

Definition throw {S A} (e : exn) : M S A := λ s, mkRan (Throw e) s [].

Definition bind {S A B} (m : M S A) (k : A → M S B) : M S B :=
  λ s,
    let r := m s in
    match result r with
    | Return a =>
        let r' := k a (final r) in
        mkRan (result r') (final r') (calls r ++ calls r')
    | Throw e => mkRan (Throw e) (final r) (calls r)
    end.

Definition read {S} : M S S := λ s, mkRan (Return s) s [].

Definition modify {S} (f : S → S) : M S unit := λ s, mkRan (Return tt) (f s) [].

Definition emit {S} (c : call) : M S unit := λ s, mkRan (Return tt) s [c].

(** An expression that may throw but has no other effect. *)
Definition lift {S A} (x : exn + A) : M S A :=
  match x with
  | inl e => throw e
  | inr a => ret a
  end.

(** stdpp's monad notations: [x ← m; k] and [m;; k]. *)
#[global] Instance M_bind {S} : MBind (M S) := λ A B k m, bind m k.

(** [a && b] where [b] is an expression with effects: [b] is evaluated only
    when [a] is truthy. *)
Definition and_then {S} (a : value) (b : M S value) : M S value :=
  if truthy a then b else ret a.

(** [Array.prototype.find]: the first element, from index 0, on which the
    callback returns true; [undefined] when there is none.  The callback is
    not called on the elements after the match. *)
Fixpoint find {S} (l : list value) (callback : value → M S bool) : M S value :=
  match l with
  | [] => ret VUndefined
  | x :: l' =>
      b ← callback x;
      if (b : bool) then ret x else find l' callback
  end.

(** [arr.find(callback)] on a value: only an array has the method, calling
    the [undefined] read from anything else is a [TypeError]. *)
Definition call_find {S} (arr : value) (callback : value → M S bool) : M S value :=
  match arr with
  | VArr l => find l callback
  | _ => throw TypeError
  end.

(** [sendAnalytics(event)], a function of [analytics]. *)
Definition sendAnalytics {S} (event : AnalyticsEvent) : M S unit :=
  emit (SendAnalytics event).

(** [conference.startRecording(options)]: the conference of the host
    library has the method; on [null] and [undefined] the property read
    throws, on any other value the property is not a function. *)
Definition startRecording {S} (conference : value) (options : RecordingOptions)
  : M S unit :=
  match conference with
  | VConference c => emit (StartRecording c options)
  | _ => throw TypeError
  end.

End Comp.

(** ** The component *)

Module AbstractStartLiveStreamDialog.
Import Js Comp.

(** An instance of the class: the props and the state of the React
    component, both JavaScript objects, and the instance variable
    [_isMounted]. *)
Record instance : Type := mkInstance {
  props : gmap string value;
  state : gmap string value;
  _isMounted : bool
}.

Definition set_state (f : gmap string value → gmap string value) (i : instance)
  : instance :=
  mkInstance (props i) (f (state i)) (_isMounted i).

Definition set_isMounted (b : bool) (i : instance) : instance :=
  mkInstance (props i) (state i) b.

(** [constructor(props)]. *)
Definition constructor (props : gmap string value) : instance :=
  mkInstance props
    {[ "broadcasts" := VUndefined;
       "errorType" := VUndefined;
       "selectedBoundStreamID" := VUndefined;
       "streamKey" := VStr "" ]}
    false.

(** React's [this.setState(newState)] with an object: the properties of
    [newState] are merged over the state, a property that is present with the
    value [undefined] included. *)
Definition setState (newState : gmap string value) : M instance unit :=
  modify (set_state (λ st, newState ∪ st)).

(** [_onInitializeGoogleApi] is declared here and implemented by the
    platforms; what an implementation does is outside this file, the
    embedding records that it was called. *)
Definition _onInitializeGoogleApi : M instance unit :=
  emit OnInitializeGoogleApi.

Definition componentDidMount : M instance unit :=
  modify (set_isMounted true);;
  this ← read;
  if truthy (field (props this) "_googleApiApplicationClientID")
  then _onInitializeGoogleApi
  else ret tt.

Definition componentWillUnmount : M instance unit :=
  modify (set_isMounted false).

Definition _onCancel : M instance value :=
  sendAnalytics (createRecordingDialogEvent "start" "cancel.button");;
  ret (VBool true).

Definition _setStateIfMounted (newState : gmap string value) : M instance unit :=
  this ← read;
  if _isMounted this
  then setState newState
  else ret tt.

Definition _onStreamKeyChange (streamKey : value) : M instance unit :=
  _setStateIfMounted
    {[ "streamKey" := streamKey;
       "selectedBoundStreamID" := VUndefined ]}.

Definition _onSubmit : M instance value :=
  this ← read;
  let broadcasts := field (state this) "broadcasts" in
  let selectedBoundStreamID := field (state this) "selectedBoundStreamID" in
  let key := or (field (state this) "streamKey") (field (props this) "_streamKey") in
  if negb (truthy key) then ret (VBool false) else
  selectedBroadcastID ←
    (if truthy selectedBoundStreamID then
       selectedBroadcast ←
         and_then broadcasts
           (call_find broadcasts (λ broadcast,
              boundStreamID ← lift (get broadcast "boundStreamID");
              ret (strict_eq boundStreamID selectedBoundStreamID)));
       and_then selectedBroadcast (lift (get selectedBroadcast "id"))
     else ret VNull);
  sendAnalytics (createRecordingDialogEvent "start" "confirm.button");;
  startRecording (field (props this) "_conference")
    {| broadcastId := selectedBroadcastID;
       mode := STREAM;
       streamId := key |};;
  ret (VBool true).

(** [_mapStateToProps(state)]: the target of the computation is the Redux
    store the selector is handed. *)
Definition _mapStateToProps : M value value :=
  state ← read;
  conference ←
    (f ← lift (get state "features/base/conference"); lift (get f "conference"));
  googleApiApplicationClientID ←
    (f ← lift (get state "features/base/config");
     lift (get f "googleApiApplicationClientID"));
  googleAPIState ←
    (f ← lift (get state "features/google-api"); lift (get f "googleAPIState"));
  profileEmail ←
    (f ← lift (get state "features/google-api"); lift (get f "profileEmail"));
  streamKey ←
    (f ← lift (get state "features/recording"); lift (get f "streamKey"));
  ret (VObj
    {[ "_conference" := conference;
       "_googleApiApplicationClientID" := googleApiApplicationClientID;
       "_googleAPIState" := googleAPIState;
       "_googleProfileEmail" := profileEmail;
       "_streamKey" := streamKey ]}).

(** *** Sequences of operations

    What React, the user and the platform code can do to an instance: the
    two lifecycle methods, the three handlers, and a state merge reported by
    an asynchronous operation of the platform. *)
Inductive op : Type :=
| ComponentDidMount
| ComponentWillUnmount
| OnCancel
| OnStreamKeyChange (streamKey : value)
| OnSubmit
| SetStateIfMounted (newState : gmap string value).

Definition perform (o : op) : M instance unit :=
  match o with
  | ComponentDidMount => componentDidMount
  | ComponentWillUnmount => componentWillUnmount
  | OnCancel => _onCancel;; ret tt
  | OnStreamKeyChange streamKey => _onStreamKeyChange streamKey
  | OnSubmit => _onSubmit;; ret tt
  | SetStateIfMounted newState => _setStateIfMounted newState
  end.

(** Each operation is a call of its own: one that throws does not stop the
    ones that follow. *)
Definition exec (i : instance) (o : op) : instance := final (perform o i).

Definition run (ops : list op) (i : instance) : instance := foldl exec i ops.

Definition is_mount (o : op) : bool :=
  match o with
  | ComponentDidMount => true
  | _ => false
  end.

End AbstractStartLiveStreamDialog.

(** ** Vocabulary of the properties *)

Module Statements.
Import Js Comp AbstractStartLiveStreamDialog.

(** [quiet m]: running [m] leaves the target as it was and calls nobody; all
    it does is return a value or throw. *)
Definition quiet {S A} (m : M S A) : Prop :=
  ∀ s, final (m s) = s ∧ calls (m s) = [].

(** What a callback of [find] answers on an element, run against [s]. *)
Definition rejects {S} (callback : value → M S bool) (s : S) (x : value) : Prop :=
  callback x s = mkRan (Return false) s [].
Definition accepts {S} (callback : value → M S bool) (s : S) (x : value) : Prop :=
  callback x s = mkRan (Return true) s [].

(** The callback handed to [find]. *)
Definition matches (selectedBoundStreamID broadcast : value) : M instance bool :=
  boundStreamID ← lift (get broadcast "boundStreamID");
  ret (strict_eq boundStreamID selectedBoundStreamID).

(** The statements of [_onSubmit] that compute [selectedBroadcastID]. *)
Definition resolve (selectedBoundStreamID broadcasts : value) : M instance value :=
  if truthy selectedBoundStreamID then
    selectedBroadcast ←
      and_then broadcasts (call_find broadcasts (matches selectedBoundStreamID));
    and_then selectedBroadcast (lift (get selectedBroadcast "id"))
  else ret VNull.

Definition confirm : call :=
  SendAnalytics (createRecordingDialogEvent "start" "confirm.button").

Definition key_of (i : instance) : value :=
  or (field (state i) "streamKey") (field (props i) "_streamKey").

(** A broadcast that can be read and is not the selected one. *)
Definition unselected (sel broadcast : value) : Prop :=
  ∃ v, get broadcast "boundStreamID" = inr v ∧ strict_eq v sel = false.

(** A broadcast that can be read and whose [boundStreamID] is not the
    string [s]: bound to another stream, or to none. *)
Definition bound_elsewhere (s : string) (broadcast : value) : Prop :=
  ∃ v, get broadcast "boundStreamID" = inr v ∧ v ≠ VStr s.

(** No broadcast of [broadcasts] is bound to the selected stream: the list
    was never fetched, or none of its entries is. *)
Definition unmatched (sel broadcasts : value) : Prop :=
  broadcasts = VUndefined ∨
  ∃ l, broadcasts = VArr l ∧ Forall (unselected sel) l.

(** The inputs the Flow types document: [_conference] is the conference,
    [broadcasts] is absent or an array of objects. *)
Definition documented (i : instance) : Prop :=
  (∃ c, field (props i) "_conference" = VConference c) ∧
  (field (state i) "broadcasts" = VUndefined ∨
   field (state i) "broadcasts" = VNull ∨
   ∃ l, field (state i) "broadcasts" = VArr l ∧ Forall (λ b, ∃ m, b = VObj m) l).

(** *** Sample instances and stores *)

Definition broadcast_1 : value :=
  VObj {[ "id" := VStr "1"; "boundStreamID" := VStr "b1" ]}.
Definition broadcast_2 : value :=
  VObj {[ "id" := VStr "2"; "boundStreamID" := VStr "b2" ]}.

(** A conference is joined, no stream key was used before. *)
Definition in_conference : gmap string value :=
  {[ "_conference" := VConference 0;
     "_googleApiApplicationClientID" := VStr "client-id";
     "_streamKey" := VStr "" ]}.

(** The dialog as constructed, before anything is typed. *)
Definition fresh : instance := constructor in_conference.

(** The key "XYZ" typed in, nothing selected. *)
Definition typed_XYZ : instance :=
  mkInstance in_conference
    {[ "broadcasts" := VUndefined;
       "errorType" := VUndefined;
       "selectedBoundStreamID" := VUndefined;
       "streamKey" := VStr "XYZ" ]}
    true.

(** Two broadcasts fetched, the one bound to [sel] selected. *)
Definition selected (sel : string) : instance :=
  mkInstance in_conference
    {[ "broadcasts" := VArr [broadcast_1; broadcast_2];
       "errorType" := VUndefined;
       "selectedBoundStreamID" := VStr sel;
       "streamKey" := VStr "XYZ" ]}
    true.

(** What happens to the dialog of [typed_XYZ] after it is closed. *)
Definition after_close : list op :=
  [SetStateIfMounted {[ "errorType" := VStr "authError" ]};
   OnStreamKeyChange (VStr "abc");
   OnSubmit;
   ComponentWillUnmount;
   OnCancel].

(** A store with every field the selector reads. *)
Definition full_store : gmap string value :=
  {[ "features/base/conference" := VObj {[ "conference" := VConference 0 ]};
     "features/base/config" :=
       VObj {[ "googleApiApplicationClientID" := VStr "client-id" ]};
     "features/google-api" :=
       VObj {[ "googleAPIState" := VNum 2;
               "profileEmail" := VStr "user@example.org" ]};
     "features/recording" := VObj {[ "streamKey" := VStr "XYZ" ]} ]}.

(** A store whose features are registered and hold nothing yet. *)
Definition bare_store : gmap string value :=
  {[ "features/base/conference" := VObj ∅;
     "features/base/config" := VObj ∅;
     "features/google-api" := VObj ∅;
     "features/recording" := VObj ∅ ]}.

(** *** The lifecycle flag and the shape of the state *)

(** [_isMounted] after an operation, from [_isMounted] before it. *)
Definition lifecycle (mounted : bool) (o : op) : bool :=
  match o with
  | ComponentDidMount => true
  | ComponentWillUnmount => false
  | _ => mounted
  end.

(** A state merge that comes from the platform code, not from a handler of
    this class. *)
Definition is_merge (o : op) : bool :=
  match o with
  | SetStateIfMounted _ => true
  | _ => false
  end.

(** The state the constructor builds, for a given stream key. *)
Definition state_with (streamKey : value) : gmap string value :=
  {[ "broadcasts" := VUndefined;
     "errorType" := VUndefined;
     "selectedBoundStreamID" := VUndefined;
     "streamKey" := streamKey ]}.

(** *** The features the selector reads *)

Definition features : list string :=
  [ "features/base/conference";
    "features/base/config";
    "features/google-api";
    "features/recording" ].

(** [store[feature]] can be read and is neither [null] nor [undefined]. *)
Definition present (store : value) (feature : string) : bool :=
  match get store feature with
  | inl _ | inr VUndefined | inr VNull => false
  | inr _ => true
  end.

(** [store[feature].name] as an expression. *)
Definition leaf (store : value) (feature name : string) : exn + value :=
  match get store feature with
  | inl e => inl e
  | inr f => get f name
  end.

(** What [_mapStateToProps] returns, as a function of the five reads. *)
Definition selected_props (store : value) : outcome value :=
  match leaf store "features/base/conference" "conference",
        leaf store "features/base/config" "googleApiApplicationClientID",
        leaf store "features/google-api" "googleAPIState",
        leaf store "features/google-api" "profileEmail",
        leaf store "features/recording" "streamKey" with
  | inr conference, inr googleApiApplicationClientID, inr googleAPIState,
    inr profileEmail, inr streamKey =>
      Return (VObj
        {[ "_conference" := conference;
           "_googleApiApplicationClientID" := googleApiApplicationClientID;
           "_googleAPIState" := googleAPIState;
           "_googleProfileEmail" := profileEmail;
           "_streamKey" := streamKey ]})
  | _, _, _, _, _ => Throw TypeError
  end.

(** [broadcasts] as the platform code leaves it: not fetched, reset, or an
    array of objects. *)
Definition listed (broadcasts : value) : Prop :=
  broadcasts = VUndefined ∨
  broadcasts = VNull ∨
  ∃ l, broadcasts = VArr l ∧ Forall (λ b, ∃ m, b = VObj m) l.

(** *** More sample instances *)

(** Two broadcasts bound to "b1", the second of them after a broadcast bound
    to "b2", and a hole at the end of the list; "b1" is selected. *)
Definition duplicates : instance :=
  mkInstance in_conference
    {[ "broadcasts" :=
         VArr [broadcast_2; broadcast_1;
               VObj {[ "id" := VStr "9"; "boundStreamID" := VStr "b1" ]};
               VNull];
       "errorType" := VUndefined;
       "selectedBoundStreamID" := VStr "b1";
       "streamKey" := VStr "XYZ" ]}
    true.



(** The key "XYZ" typed in while no conference is in the props. *)
Definition no_conference : instance :=
  mkInstance {[ "_conference" := VUndefined; "_streamKey" := VStr "" ]}
    (state_with (VStr "XYZ")) true.

(** A key was used before, nothing is typed. *)
Definition used_before : instance :=
  mkInstance {[ "_conference" := VConference 0; "_streamKey" := VStr "old-key" ]}
    (state_with (VStr "")) true.

(** The full store with a feature of another part of the application. *)
Definition busy_store : gmap string value :=
  <[ "features/toolbox" := VObj {[ "visible" := VBool true ]} ]> full_store.

(** The props the selector makes from the full store. *)
Definition full_props : gmap string value :=
  {[ "_conference" := VConference 0;
     "_googleApiApplicationClientID" := VStr "client-id";
     "_googleAPIState" := VNum 2;
     "_googleProfileEmail" := VStr "user@example.org";
     "_streamKey" := VStr "XYZ" ]}.

(** What a user and the platform do to a dialog that is not mounted yet. *)
Definition before_mount : list op :=
  [OnStreamKeyChange (VStr "abc");
   SetStateIfMounted {[ "broadcasts" := VArr [broadcast_1] ]};
   OnSubmit].

(** A session in which the platform reports nothing. *)
Definition typing_session : list op :=
  [ComponentDidMount;
   OnStreamKeyChange (VStr "a");
   OnStreamKeyChange (VStr "ab");
   OnSubmit;
   OnCancel;
   ComponentWillUnmount].

End Statements.

(** ** Expressions without effects *)

Module Quiet.
Import Js Comp Statements.

Lemma quiet_run {S A} (m : M S A) s :
  quiet m → m s = mkRan (result (m s)) s [].
Proof.
  intros Hq. destruct (Hq s) as [Hf Hc].
  destruct (m s) as [r f c]. simpl in *. by subst.
Qed.

Lemma quiet_ret {S A} (a : A) : quiet (ret a : M S A).
Proof. by intros s. Qed.

Lemma quiet_throw {S A} e : quiet (throw e : M S A).
Proof. by intros s. Qed.

Lemma quiet_read {S} : quiet (read : M S S).
Proof. by intros s. Qed.

Lemma quiet_lift {S A} (x : exn + A) : quiet (lift x : M S A).
Proof. destruct x; [apply quiet_throw | by intros s]. Qed.

Lemma quiet_bind {S A B} (m : M S A) (k : A → M S B) :
  quiet m → (∀ a, quiet (k a)) → quiet (m ≫= k).
Proof.
  intros Hm Hk s. unfold mbind, M_bind, bind.
  rewrite (quiet_run m s Hm). simpl.
  destruct (result (m s)) as [a|e]; simpl; [|done].
  destruct (Hk a s) as [Hf Hc]. by rewrite Hf, Hc.
Qed.

(** Sequencing after an expression without effects. *)
Lemma bind_quiet {S A B} (m : M S A) (k : A → M S B) s :
  quiet m →
  (m ≫= k) s =
    match result (m s) with
    | Return a => k a s
    | Throw e => mkRan (Throw e) s []
    end.
Proof.
  intros Hm. unfold mbind, M_bind, bind.
  rewrite (quiet_run m s Hm). simpl.
  destruct (result (m s)) as [a|e]; [|done]. by destruct (k a s).
Qed.

(** Sequencing after a step that is known to return. *)
Lemma bind_returns {S A B} (m : M S A) (k : A → M S B) s a :
  m s = mkRan (Return a) s [] → (m ≫= k) s = k a s.
Proof.
  intros Hm. unfold mbind, M_bind, bind. rewrite Hm.
  cbn [result final calls app]. by destruct (k a s).
Qed.

Lemma quiet_and_then {S} a (b : M S value) : quiet b → quiet (and_then a b).
Proof. intros Hb. unfold and_then. destruct (truthy a); [done | apply quiet_ret]. Qed.

Lemma quiet_find {S} l (callback : value → M S bool) :
  (∀ x, quiet (callback x)) → quiet (find l callback).
Proof.
  intros Hcb. induction l as [|x l IH]; simpl.
  - apply quiet_ret.
  - apply quiet_bind; [done|]. intros [|]; [apply quiet_ret | done].
Qed.

Lemma quiet_call_find {S} arr (callback : value → M S bool) :
  (∀ x, quiet (callback x)) → quiet (call_find arr callback).
Proof.
  intros Hcb. destruct arr; simpl; try apply quiet_throw. by apply quiet_find.
Qed.

Create HintDb quiet.
#[export] Hint Resolve quiet_ret quiet_throw quiet_read quiet_lift quiet_bind
  quiet_and_then quiet_find quiet_call_find : quiet.

End Quiet.

(** ** Properties of the handlers *)

Module Properties.
Import Js Comp AbstractStartLiveStreamDialog Statements Quiet.

(** Unfold the plumbing of a computation. *)
Ltac run_comp :=
  unfold mbind, M_bind, bind, ret, throw, read, modify, emit,
    sendAnalytics; simpl.

(** *** [find] returns the first match *)

Section Find.
Context {S : Type} (callback : value → M S bool) (s : S).

Lemma find_first pre x post :
  Forall (rejects callback s) pre → accepts callback s x →
  find (pre ++ x :: post) callback s = mkRan (Return x) s [].
Proof.
  unfold rejects, accepts.
  intros Hpre Hx. induction Hpre as [|y pre Hy _ IH]; simpl.
  - run_comp. by rewrite Hx.
  - revert IH. run_comp. rewrite Hy. simpl. by intros ->.
Qed.

Lemma find_none l :
  Forall (rejects callback s) l →
  find l callback s = mkRan (Return VUndefined) s [].
Proof.
  unfold rejects.
  intros Hl. induction Hl as [|y l Hy _ IH]; simpl; [done|].
  revert IH. run_comp. rewrite Hy. simpl. by intros ->.
Qed.
End Find.

(** *** The steps of [_onSubmit] *)

Lemma quiet_matches sel x : quiet (matches sel x).
Proof. unfold matches. auto with quiet. Qed.

Lemma quiet_resolve sel broadcasts : quiet (resolve sel broadcasts).
Proof.
  unfold resolve. destruct (truthy sel); auto 6 using quiet_matches with quiet.
Qed.

(** [_onSubmit], path by path. *)
Lemma onSubmit_run i :
  _onSubmit i =
    if truthy (key_of i) then
      match result (resolve (field (state i) "selectedBoundStreamID")
                            (field (state i) "broadcasts") i) with
      | Throw e => mkRan (Throw e) i []
      | Return id =>
          match field (props i) "_conference" with
          | VConference c =>
              mkRan (Return (VBool true)) i
                [confirm;
                 StartRecording c
                   {| broadcastId := id; mode := STREAM; streamId := key_of i |}]
          | _ => mkRan (Throw TypeError) i [confirm]
          end
      end
    else mkRan (Return (VBool false)) i [].
Proof.
  unfold _onSubmit, key_of.
  rewrite bind_quiet by apply quiet_read.
  unfold read at 1. cbn [result].
  destruct (truthy (or _ _)); cbn [negb]; [|done].
  rewrite bind_quiet
    by apply (quiet_resolve (field (state i) "selectedBoundStreamID")
                            (field (state i) "broadcasts")).
  unfold resolve, matches.
  destruct (result _) as [id|e]; [|done].
  run_comp. unfold startRecording.
  by destruct (field (props i) "_conference").
Qed.

(** *** What [resolve] returns *)

Lemma unselected_rejects sel x (i : instance) :
  unselected sel x → rejects (matches sel) i x.
Proof.
  intros (v & Hg & Hne). unfold rejects, matches. run_comp.
  rewrite Hg. simpl. by rewrite Hne.
Qed.

Lemma resolve_unset sel bs (i : instance) :
  truthy sel = false → resolve sel bs i = mkRan (Return VNull) i [].
Proof. intros Hs. unfold resolve. by rewrite Hs. Qed.

Lemma resolve_first s pre b post (i : instance) :
  s ≠ "" →
  Forall (unselected (VStr s)) pre →
  field b "boundStreamID" = VStr s →
  resolve (VStr s) (VArr (pre ++ VObj b :: post)) i
  = mkRan (Return (field b "id")) i [].
Proof.
  intros Hs Hpre Hb. unfold resolve.
  assert (truthy (VStr s) = true) as ->.
  { simpl. by apply negb_true_iff, String.eqb_neq. }
  rewrite bind_quiet by apply quiet_and_then, quiet_call_find, quiet_matches.
  unfold and_then. cbn [truthy call_find].
  rewrite (find_first (matches (VStr s)) i pre (VObj b) post).
  - done.
  - eapply Forall_impl; [exact Hpre|]. intros x. apply unselected_rejects.
  - unfold accepts, matches. run_comp. fold (field b "boundStreamID").
    rewrite Hb. simpl. by rewrite String.eqb_refl.
Qed.

Lemma resolve_no_array sel (i : instance) :
  truthy sel = true →
  resolve sel VUndefined i = mkRan (Return VUndefined) i [].
Proof. intros Hs. unfold resolve. by rewrite Hs. Qed.

Lemma resolve_null_array sel (i : instance) :
  truthy sel = true →
  resolve sel VNull i = mkRan (Return VNull) i [].
Proof. intros Hs. unfold resolve. by rewrite Hs. Qed.

Lemma resolve_none sel l (i : instance) :
  truthy sel = true →
  Forall (unselected sel) l →
  resolve sel (VArr l) i = mkRan (Return VUndefined) i [].
Proof.
  intros Hs Hl. unfold resolve. rewrite Hs.
  rewrite bind_quiet by apply quiet_and_then, quiet_call_find, quiet_matches.
  unfold and_then. cbn [truthy call_find].
  rewrite (find_none (matches sel) i l); [done|].
  eapply Forall_impl; [exact Hl|]. intros x. apply unselected_rejects.
Qed.

(** On documented inputs nothing throws. *)
Lemma find_objects sel l (i : instance) :
  Forall (λ b, ∃ m, b = VObj m) l →
  ∃ v, find l (matches sel) i = mkRan (Return v) i [] ∧
       (v = VUndefined ∨ ∃ m, v = VObj m).
Proof.
  intros Hl. induction Hl as [|x l [m ->] _ (v & IH & Hv)]; simpl.
  - exists VUndefined. split; [done | by left].
  - destruct (strict_eq (field m "boundStreamID") sel) eqn:Heq.
    + exists (VObj m). split; [|right; by exists m].
      rewrite (bind_returns _ _ _ true); [done|].
      unfold matches. run_comp. fold (field m "boundStreamID"). by rewrite Heq.
    + exists v. split; [|done].
      rewrite (bind_returns _ _ _ false); [done|].
      unfold matches. run_comp. fold (field m "boundStreamID"). by rewrite Heq.
Qed.

Lemma onSubmit_returns i :
  documented i → ∃ b : bool, result (_onSubmit i) = Return (VBool b).
Proof.
  intros [[c Hc] Hbs]. rewrite onSubmit_run, Hc.
  destruct (truthy (key_of i)); [|by exists false].
  exists true.
  set (sel := field (state i) "selectedBoundStreamID").
  unfold resolve. destruct (truthy sel) eqn:Hsel; [|done].
  rewrite bind_quiet by auto using quiet_matches with quiet.
  destruct Hbs as [-> | [-> | (l & -> & Hl)]]; [done | done |].
  unfold and_then. cbn [truthy call_find].
  destruct (find_objects sel l i Hl) as (v & -> & [-> | [m ->]]); done.
Qed.

(** The first broadcast whose [boundStreamID] is the selected one gives its
    [id] to [startRecording], whatever follows it in the list. *)
Lemma onSubmit_first_match i c s pre b post :
  truthy (key_of i) = true →
  field (state i) "selectedBoundStreamID" = VStr s →
  s ≠ "" →
  field (state i) "broadcasts" = VArr (pre ++ VObj b :: post) →
  Forall (unselected (VStr s)) pre →
  field b "boundStreamID" = VStr s →
  field (props i) "_conference" = VConference c →
  _onSubmit i =
    mkRan (Return (VBool true)) i
      [confirm;
       StartRecording c
         {| broadcastId := field b "id"; mode := STREAM; streamId := key_of i |}].
Proof.
  intros Hk Hsel Hs Hbs Hpre Hb Hc.
  rewrite onSubmit_run, Hk, Hsel, Hbs, Hc.
  by rewrite (resolve_first s pre b post i Hs Hpre Hb).
Qed.

(** **** C2 *)

(** C2. When neither the state nor the props provide a stream key (both
    [state.streamKey] and [props._streamKey] are empty), [_onSubmit] returns
    [false], calls neither [startRecording] nor [sendAnalytics], and leaves
    the instance, its state included, as it was. *)
Theorem onSubmit_without_key i :
  truthy (field (state i) "streamKey") = false →
  truthy (field (props i) "_streamKey") = false →
  _onSubmit i = mkRan (Return (VBool false)) i [].
Proof.
  intros Hs Hp. rewrite onSubmit_run. unfold key_of, or. by rewrite Hs, Hp.
Qed.

Lemma onSubmit_without_key_witness :
  _onSubmit fresh = mkRan (Return (VBool false)) fresh [].
Proof. apply (onSubmit_without_key fresh); reflexivity. Defined.

(** **** C3 *)

(** C3. With the typed key "XYZ" and no [selectedBoundStreamID], [_onSubmit]
    returns [true] and calls [startRecording] of the conference once, with
    [{broadcastId: null, mode: STREAM, streamId: "XYZ"}]. *)
Theorem onSubmit_typed_key i c :
  field (state i) "streamKey" = VStr "XYZ" →
  truthy (field (state i) "selectedBoundStreamID") = false →
  field (props i) "_conference" = VConference c →
  _onSubmit i =
    mkRan (Return (VBool true)) i
      [confirm;
       StartRecording c
         {| broadcastId := VNull; mode := STREAM; streamId := VStr "XYZ" |}].
Proof.
  intros Hk Hsel Hc. rewrite onSubmit_run. unfold key_of, or.
  rewrite Hk, Hc. cbn [truthy String.eqb negb].
  by rewrite (resolve_unset _ _ i Hsel).
Qed.

Lemma onSubmit_typed_key_witness :
  _onSubmit typed_XYZ =
    mkRan (Return (VBool true)) typed_XYZ
      [confirm;
       StartRecording 0
         {| broadcastId := VNull; mode := STREAM; streamId := VStr "XYZ" |}].
Proof. apply (onSubmit_typed_key typed_XYZ 0); reflexivity. Defined.

(** **** C4 *)

Lemma strict_eq_string v s : strict_eq v (VStr s) = true ↔ v = VStr s.
Proof.
  destruct v; simpl; try (split; [discriminate | discriminate]).
  rewrite String.eqb_eq. split; [by intros -> | by intros [= ->]].
Qed.

Lemma bound_elsewhere_unselected s x :
  bound_elsewhere s x → unselected (VStr s) x.
Proof.
  intros (v & Hg & Hne). exists v. split; [done|].
  destruct (strict_eq v (VStr s)) eqn:Heq; [|done].
  by apply strict_eq_string in Heq.
Qed.

(** C4. With a stream key and a selection, the broadcast id handed to
    [startRecording] is the [id] of the first broadcast of the list whose
    [boundStreamID] is the selected one: the broadcasts before it are bound
    elsewhere, and what comes after it does not count. So with
    [selectedBoundStreamID = "b1"] and the broadcasts
    [{id: "1", boundStreamID: "b1"}] and [{id: "2", boundStreamID: "b2"}]
    the id is "1". *)
Theorem onSubmit_selected_broadcast i c :
  truthy (key_of i) = true →
  field (props i) "_conference" = VConference c →
  (field (state i) "selectedBoundStreamID" = VStr "b1" →
   field (state i) "broadcasts" = VArr [broadcast_1; broadcast_2] →
   _onSubmit i =
     mkRan (Return (VBool true)) i
       [confirm;
        StartRecording c
          {| broadcastId := VStr "1"; mode := STREAM; streamId := key_of i |}]) ∧
  (∀ s pre b post,
     field (state i) "selectedBoundStreamID" = VStr s →
     s ≠ "" →
     field (state i) "broadcasts" = VArr (pre ++ VObj b :: post) →
     Forall (bound_elsewhere s) pre →
     field b "boundStreamID" = VStr s →
     _onSubmit i =
       mkRan (Return (VBool true)) i
         [confirm;
          StartRecording c
            {| broadcastId := field b "id"; mode := STREAM;
               streamId := key_of i |}]).
Proof.
  intros Hk Hc. split.
  - intros Hsel Hbs.
    rewrite (onSubmit_first_match i c "b1" []
               {[ "id" := VStr "1"; "boundStreamID" := VStr "b1" ]}
               [broadcast_2]); done.
  - intros s pre b post Hsel Hs Hbs Hpre Hb.
    apply (onSubmit_first_match i c s pre b post); try done.
    eapply Forall_impl; [exact Hpre|]. apply bound_elsewhere_unselected.
Qed.

(** The claim's two broadcasts with each of them selected in turn, and a
    list in which the selected stream has a second broadcast further down. *)
Lemma onSubmit_selected_broadcast_witness :
  _onSubmit (selected "b1") =
    mkRan (Return (VBool true)) (selected "b1")
      [confirm;
       StartRecording 0
         {| broadcastId := VStr "1"; mode := STREAM; streamId := VStr "XYZ" |}] ∧
  _onSubmit (selected "b2") =
    mkRan (Return (VBool true)) (selected "b2")
      [confirm;
       StartRecording 0
         {| broadcastId := VStr "2"; mode := STREAM; streamId := VStr "XYZ" |}] ∧
  _onSubmit duplicates =
    mkRan (Return (VBool true)) duplicates
      [confirm;
       StartRecording 0
         {| broadcastId := VStr "1"; mode := STREAM; streamId := VStr "XYZ" |}].
Proof.
  split_and!.
  - destruct (onSubmit_selected_broadcast (selected "b1") 0) as [Hclaim _];
      [reflexivity | reflexivity |].
    apply Hclaim; reflexivity.
  - destruct (onSubmit_selected_broadcast (selected "b2") 0) as [_ Hfirst];
      [reflexivity | reflexivity |].
    etrans.
    + apply (Hfirst "b2" [broadcast_1]
               {[ "id" := VStr "2"; "boundStreamID" := VStr "b2" ]} []);
        [reflexivity | discriminate | reflexivity | | reflexivity].
      repeat constructor. eexists. split; [reflexivity | discriminate].
    + reflexivity.
  - destruct (onSubmit_selected_broadcast duplicates 0) as [_ Hfirst];
      [reflexivity | reflexivity |].
    etrans.
    + apply (Hfirst "b1" [broadcast_2]
               {[ "id" := VStr "1"; "boundStreamID" := VStr "b1" ]}
               [VObj {[ "id" := VStr "9"; "boundStreamID" := VStr "b1" ]}; VNull]);
        [reflexivity | discriminate | reflexivity | | reflexivity].
      repeat constructor. eexists. split; [reflexivity | discriminate].
    + reflexivity.
Defined.

(** **** C5 *)

(** C5, as amended. With a stream key and a [selectedBoundStreamID] that no
    broadcast is bound to (or with [broadcasts] unset), [_onSubmit] hands
    [broadcastId: undefined] to [startRecording], which it still calls, and
    returns [true]. *)
Theorem onSubmit_unmatched_selection i c s :
  truthy (key_of i) = true →
  field (state i) "selectedBoundStreamID" = VStr s →
  s ≠ "" →
  unmatched (VStr s) (field (state i) "broadcasts") →
  field (props i) "_conference" = VConference c →
  _onSubmit i =
    mkRan (Return (VBool true)) i
      [confirm;
       StartRecording c
         {| broadcastId := VUndefined; mode := STREAM; streamId := key_of i |}].
Proof.
  intros Hk Hsel Hs Hun Hc.
  assert (truthy (VStr s) = true) as Ht.
  { simpl. by apply negb_true_iff, String.eqb_neq. }
  rewrite onSubmit_run, Hk, Hsel, Hc.
  destruct Hun as [-> | (l & -> & Hl)].
  - by rewrite (resolve_no_array _ i Ht).
  - by rewrite (resolve_none _ l i Ht Hl).
Qed.

Lemma unmatched_b3 :
  unmatched (VStr "b3") (field (state (selected "b3")) "broadcasts").
Proof.
  right. exists [broadcast_1; broadcast_2]. split; [reflexivity|].
  repeat constructor; eexists; (split; [reflexivity | reflexivity]).
Qed.

Lemma onSubmit_unmatched_selection_witness :
  _onSubmit (selected "b3") =
    mkRan (Return (VBool true)) (selected "b3")
      [confirm;
       StartRecording 0
         {| broadcastId := VUndefined; mode := STREAM; streamId := VStr "XYZ" |}].
Proof.
  apply (onSubmit_unmatched_selection (selected "b3") 0 "b3");
    [reflexivity | reflexivity | discriminate | | reflexivity].
  right. exists [broadcast_1; broadcast_2]. split; [reflexivity|].
  repeat constructor; eexists; (split; [reflexivity | reflexivity]).
Defined.

(** The claim with [null]: the dialog of [selected "b3"] has the key "XYZ",
    the selection "b3" and two broadcasts bound to "b1" and "b2"; the
    [broadcastId] it hands over is [undefined], not [null]. *)
Lemma onSubmit_unmatched_not_null :
  truthy (key_of (selected "b3")) = true ∧
  field (state (selected "b3")) "selectedBoundStreamID" = VStr "b3" ∧
  unmatched (VStr "b3") (field (state (selected "b3")) "broadcasts") ∧
  calls (_onSubmit (selected "b3")) =
    [confirm;
     StartRecording 0
       {| broadcastId := VUndefined; mode := STREAM; streamId := VStr "XYZ" |}] ∧
  calls (_onSubmit (selected "b3")) ≠
    [confirm;
     StartRecording 0
       {| broadcastId := VNull; mode := STREAM; streamId := VStr "XYZ" |}].
Proof.
  split; [reflexivity|]. split; [reflexivity|]. split; [apply unmatched_b3|].
  assert (calls (_onSubmit (selected "b3")) =
    [confirm;
     StartRecording 0
       {| broadcastId := VUndefined; mode := STREAM; streamId := VStr "XYZ" |}])
    as -> by (by vm_compute).
  split; [reflexivity | discriminate].
Qed.

(** **** C10 *)

(** C10. [_onSubmit] never changes the instance, so never the state. When it
    returns [false] it has called nobody; when it returns [true] it has sent
    the one analytics event and called [startRecording] once; when a
    malformed input makes it throw, it has done nothing or sent the
    analytics event only. *)
Theorem onSubmit_frame i :
  final (_onSubmit i) = i ∧
  match result (_onSubmit i) with
  | Return v =>
      (v = VBool false ∧ calls (_onSubmit i) = []) ∨
      (v = VBool true ∧
       ∃ c options, calls (_onSubmit i) = [confirm; StartRecording c options])
  | Throw _ =>
      calls (_onSubmit i) = [] ∨ calls (_onSubmit i) = [confirm]
  end.
Proof.
  rewrite onSubmit_run.
  destruct (truthy (key_of i)); [|simpl; auto].
  destruct (result _) as [id|e]; [|simpl; auto].
  destruct (field (props i) "_conference"); simpl; eauto 6.
Qed.

(** *** Lifecycle and state merges *)

Lemma onSubmit_final i : final (_onSubmit i) = i.
Proof.
  rewrite onSubmit_run.
  destruct (truthy (key_of i)); [|done].
  destruct (result _); [|done].
  by destruct (field (props i) "_conference").
Qed.

Lemma setStateIfMounted_unmounted newState i :
  _isMounted i = false →
  _setStateIfMounted newState i = mkRan (Return tt) i [].
Proof. intros Hm. unfold _setStateIfMounted. run_comp. by rewrite Hm. Qed.

Lemma setStateIfMounted_mounted newState i :
  _isMounted i = true →
  _setStateIfMounted newState i
  = mkRan (Return tt) (set_state (λ st, newState ∪ st) i) [].
Proof. intros Hm. unfold _setStateIfMounted. run_comp. by rewrite Hm. Qed.

(** Once unmounted, only [componentDidMount] changes the instance. *)
Lemma exec_unmounted i o :
  _isMounted i = false → is_mount o = false → exec i o = i.
Proof.
  intros Hm Ho. unfold exec.
  destruct o; try discriminate Ho; unfold perform.
  - destruct i; simpl in *. by subst.
  - reflexivity.
  - unfold _onStreamKeyChange. by rewrite setStateIfMounted_unmounted.
  - unfold mbind, M_bind, bind, ret.
    destruct (result (_onSubmit i)); cbn [final]; apply onSubmit_final.
  - by rewrite setStateIfMounted_unmounted.
Qed.

Lemma run_unmounted ops i :
  _isMounted i = false →
  forallb (λ o, negb (is_mount o)) ops = true →
  run ops i = i.
Proof.
  intros Hm. unfold run. induction ops as [|o ops IH]; simpl; [done|].
  intros [Ho Hops]%andb_true_iff. apply negb_true_iff in Ho.
  rewrite exec_unmounted by done. by apply IH.
Qed.

(** **** C1 *)

(** C1. After [componentWillUnmount] has run, and whatever the handlers and
    the asynchronous operations do next short of mounting the component
    again, [_isMounted] is false, the state is the one the component was
    unmounted with, and a call of [_setStateIfMounted] changes nothing. *)
Theorem setStateIfMounted_after_unmount i ops newState :
  forallb (λ o, negb (is_mount o)) ops = true →
  let j := run ops (final (componentWillUnmount i)) in
  _isMounted j = false ∧
  state j = state i ∧
  _setStateIfMounted newState j = mkRan (Return tt) j [].
Proof.
  intros Hops j. subst j.
  rewrite run_unmounted by done. simpl.
  split; [done|]. split; [done|].
  by apply setStateIfMounted_unmounted.
Qed.

Lemma setStateIfMounted_after_unmount_witness :
  let j := run after_close (final (componentWillUnmount typed_XYZ)) in
  _isMounted j = false ∧
  state j = state typed_XYZ ∧
  _setStateIfMounted {[ "broadcasts" := VArr [broadcast_1] ]} j
  = mkRan (Return tt) j [].
Proof.
  apply (setStateIfMounted_after_unmount typed_XYZ after_close
           {[ "broadcasts" := VArr [broadcast_1] ]}).
  reflexivity.
Defined.

(** **** C6 *)

(** C6. [_onCancel] returns [true] and sends one analytics event, made by
    [createRecordingDialogEvent('start', 'cancel.button')]; it changes
    nothing in the instance and calls nobody else. *)
Theorem onCancel_closes i :
  _onCancel i =
    mkRan (Return (VBool true)) i
      [SendAnalytics (createRecordingDialogEvent "start" "cancel.button")].
Proof. reflexivity. Qed.

(** **** C7 *)

(** C7. On a mounted dialog, [_onStreamKeyChange(newKey)] leaves a state
    whose [streamKey] is [newKey] and whose [selectedBoundStreamID] is
    [undefined]; [broadcasts], [errorType] and any other property of the
    state are as before, as are the props. The merge goes through
    [_setStateIfMounted]: on the same dialog unmounted, nothing changes. *)
Theorem onStreamKeyChange_sets_key i newKey :
  _isMounted i = true →
  let r := _onStreamKeyChange (VStr newKey) i in
  field (state (final r)) "streamKey" = VStr newKey ∧
  field (state (final r)) "selectedBoundStreamID" = VUndefined ∧
  field (state (final r)) "broadcasts" = field (state i) "broadcasts" ∧
  field (state (final r)) "errorType" = field (state i) "errorType" ∧
  (∀ k, k ≠ "streamKey" → k ≠ "selectedBoundStreamID" →
        state (final r) !! k = state i !! k) ∧
  props (final r) = props i ∧
  _isMounted (final r) = true ∧
  result r = Return tt ∧
  calls r = [] ∧
  final (_onStreamKeyChange (VStr newKey) (set_isMounted false i))
  = set_isMounted false i.
Proof.
  intros Hm r. subst r. unfold _onStreamKeyChange.
  rewrite setStateIfMounted_mounted by done.
  rewrite setStateIfMounted_unmounted by done.
  unfold field. simpl.
  assert (∀ k, k ≠ "streamKey" → k ≠ "selectedBoundStreamID" →
    (({[ "streamKey" := VStr newKey; "selectedBoundStreamID" := VUndefined ]}
        : gmap string value) ∪ state i) !! k = state i !! k) as Hother.
  { intros k H1 H2. apply lookup_union_r.
    by rewrite lookup_insert_ne, lookup_singleton_ne. }
  repeat split; try done.
  - by erewrite lookup_union_Some_l; [|apply lookup_insert_eq].
  - erewrite lookup_union_Some_l; [done|].
    by rewrite lookup_insert_ne, lookup_singleton_eq.
  - by rewrite Hother.
  - by rewrite Hother.
Qed.

Lemma onStreamKeyChange_sets_key_witness :
  let r := _onStreamKeyChange (VStr "abc") (selected "b1") in
  field (state (final r)) "streamKey" = VStr "abc" ∧
  field (state (final r)) "selectedBoundStreamID" = VUndefined ∧
  field (state (final r)) "broadcasts" = field (state (selected "b1")) "broadcasts" ∧
  field (state (final r)) "errorType" = field (state (selected "b1")) "errorType" ∧
  (∀ k, k ≠ "streamKey" → k ≠ "selectedBoundStreamID" →
        state (final r) !! k = state (selected "b1") !! k) ∧
  props (final r) = props (selected "b1") ∧
  _isMounted (final r) = true ∧
  result r = Return tt ∧
  calls r = [] ∧
  final (_onStreamKeyChange (VStr "abc") (set_isMounted false (selected "b1")))
  = set_isMounted false (selected "b1").
Proof. apply (onStreamKeyChange_sets_key (selected "b1") "abc"). reflexivity. Defined.

(** **** C8 *)

(** C8. [componentDidMount] sets [_isMounted] to true, leaves props and
    state alone, and calls [_onInitializeGoogleApi], once, exactly when
    [props._googleApiApplicationClientID] is truthy: for a string, when it
    is not empty. *)
Theorem componentDidMount_mounts i :
  let r := componentDidMount i in
  let clientID := field (props i) "_googleApiApplicationClientID" in
  _isMounted (final r) = true ∧
  props (final r) = props i ∧
  state (final r) = state i ∧
  result r = Return tt ∧
  calls r = (if truthy clientID then [OnInitializeGoogleApi] else []) ∧
  (OnInitializeGoogleApi ∈ calls r ↔ truthy clientID = true) ∧
  (∀ id, clientID = VStr id → (OnInitializeGoogleApi ∈ calls r ↔ id ≠ "")).
Proof.
  intros r clientID. subst r. unfold componentDidMount, _onInitializeGoogleApi.
  run_comp. fold clientID.
  assert (∀ id, truthy (VStr id) = true ↔ id ≠ "") as Hstr.
  { intros id. simpl. rewrite negb_true_iff. apply String.eqb_neq. }
  destruct (truthy clientID) eqn:Ht; simpl; split_and!; try done.
  - split; [done|]. intros _. by apply list_elem_of_singleton.
  - intros id Hid. rewrite <- Hstr, <- Hid, Ht.
    split; [done|]. intros _. by apply list_elem_of_singleton.
  - split; [by intros ?%elem_of_nil | done].
  - intros id Hid. rewrite <- Hstr, <- Hid, Ht.
    split; [by intros ?%elem_of_nil | done].
Qed.

(** *** The selector *)

Lemma field_missing (m : gmap string value) k :
  m !! k = None → field m k = VUndefined.
Proof. intros Hm. unfold field. by rewrite Hm. Qed.

(** [state['feature'].leaf] on a store whose feature is an object. *)
Lemma read_feature {S} (store o : gmap string value) feature leaf (s : S) :
  store !! feature = Some (VObj o) →
  (f ← lift (get (VObj store) feature); lift (get f leaf)) s
  = mkRan (Return (field o leaf)) s [].
Proof.
  intros Hf. unfold mbind, M_bind, bind, lift, get. rewrite Hf. reflexivity.
Qed.

Lemma quiet_mapStateToProps : quiet _mapStateToProps.
Proof.
  unfold _mapStateToProps. auto 12 with quiet.
Qed.

(** **** C9 *)

(** C9, as amended. [_mapStateToProps] reads five fields, [conference],
    [googleApiApplicationClientID], [googleAPIState], [profileEmail] and
    [streamKey], from four features of the store. It changes nothing in the
    store and calls nobody. On a store whose four features are objects it
    returns an object of exactly five props, each the value of its field
    unvalidated, [undefined] when the field is missing. *)
Theorem mapStateToProps_projection store conference config google recording :
  store !! "features/base/conference" = Some (VObj conference) →
  store !! "features/base/config" = Some (VObj config) →
  store !! "features/google-api" = Some (VObj google) →
  store !! "features/recording" = Some (VObj recording) →
  let mapped : gmap string value :=
    {[ "_conference" := field conference "conference";
       "_googleApiApplicationClientID" := field config "googleApiApplicationClientID";
       "_googleAPIState" := field google "googleAPIState";
       "_googleProfileEmail" := field google "profileEmail";
       "_streamKey" := field recording "streamKey" ]} in
  _mapStateToProps (VObj store) = mkRan (Return (VObj mapped)) (VObj store) [] ∧
  size mapped = 5 ∧
  (conference !! "conference" = None → field mapped "_conference" = VUndefined) ∧
  (config !! "googleApiApplicationClientID" = None →
     field mapped "_googleApiApplicationClientID" = VUndefined) ∧
  (google !! "googleAPIState" = None →
     field mapped "_googleAPIState" = VUndefined) ∧
  (google !! "profileEmail" = None →
     field mapped "_googleProfileEmail" = VUndefined) ∧
  (recording !! "streamKey" = None → field mapped "_streamKey" = VUndefined) ∧
  quiet _mapStateToProps.
Proof.
  intros H1 H2 H3 H4 mapped.
  split_and!.
  - unfold _mapStateToProps.
    rewrite bind_quiet by apply quiet_read. unfold read at 1. cbn [result].
    rewrite (bind_returns _ _ _ _ (read_feature store _ _ "conference" _ H1)).
    rewrite (bind_returns _ _ _ _
               (read_feature store _ _ "googleApiApplicationClientID" _ H2)).
    rewrite (bind_returns _ _ _ _ (read_feature store _ _ "googleAPIState" _ H3)).
    rewrite (bind_returns _ _ _ _ (read_feature store _ _ "profileEmail" _ H3)).
    rewrite (bind_returns _ _ _ _ (read_feature store _ _ "streamKey" _ H4)).
    reflexivity.
  - subst mapped.
    generalize (field conference "conference"),
      (field config "googleApiApplicationClientID"),
      (field google "googleAPIState"), (field google "profileEmail"),
      (field recording "streamKey").
    intros. by vm_compute.
  - intros Hm. subst mapped. rewrite (field_missing _ _ Hm).
    generalize (field config "googleApiApplicationClientID"),
      (field google "googleAPIState"), (field google "profileEmail"),
      (field recording "streamKey").
    intros. by vm_compute.
  - intros Hm. subst mapped. rewrite (field_missing _ _ Hm).
    generalize (field conference "conference"),
      (field google "googleAPIState"), (field google "profileEmail"),
      (field recording "streamKey").
    intros. by vm_compute.
  - intros Hm. subst mapped. rewrite (field_missing _ _ Hm).
    generalize (field conference "conference"),
      (field config "googleApiApplicationClientID"),
      (field google "profileEmail"), (field recording "streamKey").
    intros. by vm_compute.
  - intros Hm. subst mapped. rewrite (field_missing _ _ Hm).
    generalize (field conference "conference"),
      (field config "googleApiApplicationClientID"),
      (field google "googleAPIState"), (field recording "streamKey").
    intros. by vm_compute.
  - intros Hm. subst mapped. rewrite (field_missing _ _ Hm).
    generalize (field conference "conference"),
      (field config "googleApiApplicationClientID"),
      (field google "googleAPIState"), (field google "profileEmail").
    intros. by vm_compute.
  - apply quiet_mapStateToProps.
Qed.

Lemma mapStateToProps_projection_witness :
  _mapStateToProps (VObj bare_store) =
    mkRan
      (Return (VObj
         {[ "_conference" := VUndefined;
            "_googleApiApplicationClientID" := VUndefined;
            "_googleAPIState" := VUndefined;
            "_googleProfileEmail" := VUndefined;
            "_streamKey" := VUndefined ]}))
      (VObj bare_store) [].
Proof.
  destruct (mapStateToProps_projection bare_store ∅ ∅ ∅ ∅) as [Hrun _];
    [vm_compute; reflexivity ..|].
  exact Hrun.
Defined.

(** The claim on two stores. On the full store the selector returns five
    props, so five fields were read, not six. The empty store misses every
    field, and the selector throws on it: no prop is [undefined], there are
    no props. *)
Lemma mapStateToProps_five_and_throws :
  (∃ mapped, result (_mapStateToProps (VObj full_store)) = Return (VObj mapped) ∧
             size mapped = 5 ∧ size mapped ≠ 6) ∧
  result (_mapStateToProps (VObj ∅)) = Throw TypeError ∧
  ¬ (∃ mapped, result (_mapStateToProps (VObj ∅)) = Return (VObj mapped) ∧
               field mapped "_streamKey" = VUndefined).
Proof.
  split_and!.
  - eexists. split; [by vm_compute|]. split; [by vm_compute|].
    vm_compute. discriminate.
  - by vm_compute.
  - intros (mapped & Hr & _). vm_compute in Hr. discriminate.
Qed.

End Properties.

(** ** Further behaviour of the component *)

Module Behaviour.
Import Js Comp AbstractStartLiveStreamDialog Statements Quiet Properties.

(** *** One operation *)

Lemma componentDidMount_final i :
  final (componentDidMount i) = set_isMounted true i.
Proof.
  unfold componentDidMount, _onInitializeGoogleApi. run_comp.
  by destruct (truthy _).
Qed.

(** The instance after each operation. *)
Lemma exec_cases i o :
  exec i o =
    match o with
    | ComponentDidMount => set_isMounted true i
    | ComponentWillUnmount => set_isMounted false i
    | OnCancel | OnSubmit => i
    | OnStreamKeyChange streamKey =>
        if _isMounted i
        then set_state
               (λ st, {[ "streamKey" := streamKey;
                         "selectedBoundStreamID" := VUndefined ]} ∪ st) i
        else i
    | SetStateIfMounted newState =>
        if _isMounted i then set_state (λ st, newState ∪ st) i else i
    end.
Proof.
  unfold exec. destruct o; unfold perform.
  - apply componentDidMount_final.
  - reflexivity.
  - reflexivity.
  - unfold _onStreamKeyChange. destruct (_isMounted i) eqn:Hm.
    + by rewrite setStateIfMounted_mounted.
    + by rewrite setStateIfMounted_unmounted.
  - unfold mbind, M_bind, bind, ret.
    destruct (result (_onSubmit i)); cbn [final]; apply onSubmit_final.
  - destruct (_isMounted i) eqn:Hm.
    + by rewrite setStateIfMounted_mounted.
    + by rewrite setStateIfMounted_unmounted.
Qed.

Lemma run_snoc ops o i : run (ops ++ [o]) i = exec (run ops i) o.
Proof. unfold run. by rewrite foldl_app. Qed.

Lemma run_cons o ops i : run (o :: ops) i = run ops (exec i o).
Proof. reflexivity. Qed.

(** *** Sequences of operations *)

(** X1. A dialog that was constructed and not mounted yet ignores what is
    typed and what the platform reports: it stays as constructed. *)
Theorem unmounted_dialog_ignores_input p ops :
  forallb (λ o, negb (is_mount o)) ops = true →
  run ops (constructor p) = constructor p.
Proof. intros Hops. by apply run_unmounted. Qed.

Lemma unmounted_dialog_ignores_input_witness :
  run before_mount (constructor in_conference) = constructor in_conference.
Proof.
  apply (unmounted_dialog_ignores_input in_conference before_mount).
  reflexivity.
Defined.

Lemma exec_props i o : props (exec i o) = props i.
Proof.
  rewrite exec_cases. destruct o; try done; by destruct (_isMounted i).
Qed.

Lemma exec_isMounted i o : _isMounted (exec i o) = lifecycle (_isMounted i) o.
Proof.
  rewrite exec_cases.
  destruct o; try done; by destruct (_isMounted i) eqn:Hm.
Qed.

(** X2. No operation changes the props, and [_isMounted] is set by the two
    lifecycle methods only: after a sequence of operations it is what the
    last of them left. *)
Theorem operations_keep_props ops i :
  props (run ops i) = props i ∧
  _isMounted (run ops i) = foldl lifecycle (_isMounted i) ops.
Proof.
  revert i. induction ops as [|o ops IH]; intros i; [done|].
  rewrite run_cons. cbn [foldl].
  destruct (IH (exec i o)) as [-> ->].
  by rewrite exec_props, exec_isMounted.
Qed.

(** X3. No operation removes a property from the state. *)
Theorem operations_keep_state_keys ops i :
  dom (state i) ⊆ dom (state (run ops i)).
Proof.
  revert i. induction ops as [|o ops IH]; intros i; [done|].
  rewrite run_cons. etrans; [|apply IH]. rewrite exec_cases.
  destruct o; try done; destruct (_isMounted i); try done;
    cbn [state set_state]; rewrite dom_union_L; set_solver.
Qed.

Lemma key_change_on_state_with k k' :
  ({[ "streamKey" := k'; "selectedBoundStreamID" := VUndefined ]}
     : gmap string value) ∪ state_with k = state_with k'.
Proof.
  apply map_eq. intros x. unfold state_with.
  rewrite lookup_union, !lookup_insert, !lookup_singleton.
  repeat case_decide; by subst.
Qed.

Lemma state_with_fields k :
  field (state_with k) "broadcasts" = VUndefined ∧
  field (state_with k) "errorType" = VUndefined ∧
  field (state_with k) "selectedBoundStreamID" = VUndefined ∧
  field (state_with k) "streamKey" = k.
Proof.
  unfold field, state_with. split_and!.
  - by rewrite lookup_insert_eq.
  - by rewrite lookup_insert_ne, lookup_insert_eq.
  - rewrite 2!lookup_insert_ne by done. by rewrite lookup_insert_eq.
  - rewrite 3!lookup_insert_ne by done. by rewrite lookup_singleton_eq.
Qed.

Lemma exec_state_with i o k :
  state i = state_with k → is_merge o = false →
  ∃ k', state (exec i o) = state_with k'.
Proof.
  intros Hst Ho. rewrite exec_cases.
  destruct o; try discriminate Ho; eauto.
  destruct (_isMounted i); eauto.
  cbn [state set_state]. rewrite Hst, key_change_on_state_with. eauto.
Qed.

Lemma run_state_with ops i k :
  state i = state_with k →
  forallb (λ o, negb (is_merge o)) ops = true →
  ∃ k', state (run ops i) = state_with k'.
Proof.
  revert i k. induction ops as [|o ops IH]; intros i k Hst; [eauto|].
  cbn [forallb]. intros [Ho Hops]%andb_true_iff. apply negb_true_iff in Ho.
  rewrite run_cons.
  destruct (exec_state_with i o k Hst Ho) as [k' Hk']. eauto.
Qed.

(** X4. As long as the platform reports nothing, the handlers of this class
    keep the state in the shape the constructor gave it: only [streamKey]
    ever differs, and [broadcasts], [errorType] and [selectedBoundStreamID]
    stay [undefined]. *)
Theorem handlers_keep_state_shape p ops :
  forallb (λ o, negb (is_merge o)) ops = true →
  let j := run ops (constructor p) in
  state j = state_with (field (state j) "streamKey") ∧
  field (state j) "broadcasts" = VUndefined ∧
  field (state j) "errorType" = VUndefined ∧
  field (state j) "selectedBoundStreamID" = VUndefined.
Proof.
  intros Hops j.
  destruct (run_state_with ops (constructor p) (VStr "") eq_refl Hops) as [k Hk].
  subst j. rewrite Hk.
  destruct (state_with_fields k) as (Hb & He & Hs & ->). done.
Qed.

Lemma handlers_keep_state_shape_witness :
  let j := run typing_session (constructor in_conference) in
  state j = state_with (field (state j) "streamKey") ∧
  field (state j) "broadcasts" = VUndefined ∧
  field (state j) "errorType" = VUndefined ∧
  field (state j) "selectedBoundStreamID" = VUndefined.
Proof.
  apply (handlers_keep_state_shape in_conference typing_session).
  reflexivity.
Defined.

(** *** State merges *)

(** X5. Two merges in a row on a mounted dialog are one merge of the second
    object over the first, and repeating a merge changes nothing more. *)
Theorem merges_compose i first second :
  _isMounted i = true →
  final (_setStateIfMounted second (final (_setStateIfMounted first i)))
  = final (_setStateIfMounted (second ∪ first) i) ∧
  final (_setStateIfMounted first (final (_setStateIfMounted first i)))
  = final (_setStateIfMounted first i).
Proof.
  intros Hm. rewrite !(setStateIfMounted_mounted _ i) by done.
  cbn [final]. rewrite !setStateIfMounted_mounted by done.
  cbn [final]. unfold set_state. cbn [props state _isMounted].
  split; f_equal.
  - by rewrite (assoc_L (∪)).
  - by rewrite (assoc_L (∪)), (idemp_L (∪)).
Qed.

Lemma merges_compose_witness :
  final (_setStateIfMounted {[ "errorType" := VUndefined ]}
           (final (_setStateIfMounted {[ "errorType" := VStr "authError" ]}
                     typed_XYZ)))
  = final (_setStateIfMounted
             ({[ "errorType" := VUndefined ]} ∪ {[ "errorType" := VStr "authError" ]})
             typed_XYZ) ∧
  final (_setStateIfMounted {[ "errorType" := VStr "authError" ]}
           (final (_setStateIfMounted {[ "errorType" := VStr "authError" ]}
                     typed_XYZ)))
  = final (_setStateIfMounted {[ "errorType" := VStr "authError" ]} typed_XYZ).
Proof.
  apply (merges_compose typed_XYZ {[ "errorType" := VStr "authError" ]}
           {[ "errorType" := VUndefined ]}).
  reflexivity.
Defined.

(** *** Submitting *)

Lemma truthy_string s : s ≠ "" → truthy (VStr s) = true.
Proof. intros Hs. simpl. by apply negb_true_iff, String.eqb_neq. Qed.

Lemma or_truthy a b : truthy a = true → or a b = a.
Proof. intros Ha. unfold or. by rewrite Ha. Qed.

Lemma or_falsy a b : truthy a = false → or a b = b.
Proof. intros Ha. unfold or. by rewrite Ha. Qed.

Lemma onStreamKeyChange_final i streamKey :
  _isMounted i = true →
  final (_onStreamKeyChange streamKey i)
  = set_state (λ st, {[ "streamKey" := streamKey;
                        "selectedBoundStreamID" := VUndefined ]} ∪ st) i.
Proof.
  intros Hm. unfold _onStreamKeyChange. by rewrite setStateIfMounted_mounted.
Qed.

Lemma fields_after_key_change (st : gmap string value) streamKey :
  field ({[ "streamKey" := streamKey;
            "selectedBoundStreamID" := VUndefined ]} ∪ st) "streamKey"
  = streamKey ∧
  field ({[ "streamKey" := streamKey;
            "selectedBoundStreamID" := VUndefined ]} ∪ st) "selectedBoundStreamID"
  = VUndefined.
Proof.
  unfold field. split.
  - by erewrite lookup_union_Some_l; [|apply lookup_insert_eq].
  - erewrite lookup_union_Some_l; [done|].
    by rewrite lookup_insert_ne, lookup_singleton_eq.
Qed.

(** X6. Typing a key and submitting: on a mounted dialog, whatever was
    selected or typed before, [startRecording] gets the key just typed and
    [broadcastId: null], because typing clears the selection. *)
Theorem typed_key_is_submitted i c newKey :
  _isMounted i = true →
  newKey ≠ "" →
  field (props i) "_conference" = VConference c →
  let j := final (_onStreamKeyChange (VStr newKey) i) in
  _onSubmit j =
    mkRan (Return (VBool true)) j
      [confirm;
       StartRecording c
         {| broadcastId := VNull; mode := STREAM; streamId := VStr newKey |}].
Proof.
  intros Hm Hk Hc j. subst j. rewrite onStreamKeyChange_final by done.
  rewrite onSubmit_run. unfold key_of. cbn [state props set_state].
  destruct (fields_after_key_change (state i) (VStr newKey)) as [-> ->].
  rewrite or_truthy by by apply truthy_string.
  rewrite (truthy_string newKey Hk), Hc.
  by rewrite resolve_unset.
Qed.

Lemma typed_key_is_submitted_witness :
  let j := final (_onStreamKeyChange (VStr "abc") (selected "b1")) in
  _onSubmit j =
    mkRan (Return (VBool true)) j
      [confirm;
       StartRecording 0
         {| broadcastId := VNull; mode := STREAM; streamId := VStr "abc" |}].
Proof.
  apply (typed_key_is_submitted (selected "b1") 0 "abc");
    [reflexivity | discriminate | reflexivity].
Defined.

(** X7. Emptying the key field and submitting: the key used before, from the
    props, is submitted with [broadcastId: null]; without one the dialog
    stays open and nothing is called. *)
Theorem emptied_key_falls_back i c :
  _isMounted i = true →
  field (props i) "_conference" = VConference c →
  let j := final (_onStreamKeyChange (VStr "") i) in
  _onSubmit j =
    if truthy (field (props i) "_streamKey")
    then mkRan (Return (VBool true)) j
           [confirm;
            StartRecording c
              {| broadcastId := VNull; mode := STREAM;
                 streamId := field (props i) "_streamKey" |}]
    else mkRan (Return (VBool false)) j [].
Proof.
  intros Hm Hc j. subst j. rewrite onStreamKeyChange_final by done.
  rewrite onSubmit_run. unfold key_of. cbn [state props set_state].
  destruct (fields_after_key_change (state i) (VStr "")) as [-> ->].
  rewrite or_falsy by done.
  destruct (truthy (field (props i) "_streamKey")); [|done].
  by rewrite Hc, resolve_unset.
Qed.

Lemma emptied_key_falls_back_witness :
  let j := final (_onStreamKeyChange (VStr "") used_before) in
  _onSubmit j =
    mkRan (Return (VBool true)) j
      [confirm;
       StartRecording 0
         {| broadcastId := VNull; mode := STREAM; streamId := VStr "old-key" |}].
Proof.
  apply (emptied_key_falls_back used_before 0); reflexivity.
Defined.

(** X8. Every call of [startRecording] that [_onSubmit] makes is on the
    conference of the props, in mode [STREAM], with a stream key that is not
    empty: the typed one, or the one of the props when none is typed; the
    broadcast id is [null] when nothing is selected; and the dialog closes. *)
Theorem startRecording_is_well_formed i c options :
  StartRecording c options ∈ calls (_onSubmit i) →
  field (props i) "_conference" = VConference c ∧
  mode options = STREAM ∧
  streamId options = key_of i ∧
  truthy (streamId options) = true ∧
  (truthy (field (state i) "selectedBoundStreamID") = false →
   broadcastId options = VNull) ∧
  result (_onSubmit i) = Return (VBool true).
Proof.
  rewrite onSubmit_run.
  destruct (truthy (key_of i)) eqn:Hk; [|by intros ?%elem_of_nil].
  destruct (truthy (field (state i) "selectedBoundStreamID")) eqn:Hsel.
  - destruct (result _) as [id|e]; [|by intros ?%elem_of_nil].
    destruct (field (props i) "_conference");
      cbn [calls result]; intros Hin;
      repeat (apply elem_of_cons in Hin as [Hin|Hin]; try discriminate Hin);
      try (by apply elem_of_nil in Hin).
    by injection Hin as -> ->.
  - rewrite resolve_unset by done. cbn [result].
    destruct (field (props i) "_conference");
      cbn [calls result]; intros Hin;
      repeat (apply elem_of_cons in Hin as [Hin|Hin]; try discriminate Hin);
      try (by apply elem_of_nil in Hin).
    by injection Hin as -> ->.
Qed.

Lemma startRecording_is_well_formed_witness :
  field (props (selected "b1")) "_conference" = VConference 0 ∧
  mode (mkOptions (VStr "1") STREAM (VStr "XYZ")) = STREAM ∧
  streamId (mkOptions (VStr "1") STREAM (VStr "XYZ")) = key_of (selected "b1") ∧
  truthy (streamId (mkOptions (VStr "1") STREAM (VStr "XYZ"))) = true ∧
  (truthy (field (state (selected "b1")) "selectedBoundStreamID") = false →
   broadcastId (mkOptions (VStr "1") STREAM (VStr "XYZ")) = VNull) ∧
  result (_onSubmit (selected "b1")) = Return (VBool true).
Proof.
  apply (startRecording_is_well_formed (selected "b1") 0
           (mkOptions (VStr "1") STREAM (VStr "XYZ"))).
  vm_compute. apply list_elem_of_further, list_elem_of_here.
Defined.

Lemma resolve_listed sel bs (i : instance) :
  listed bs → ∃ id, resolve sel bs i = mkRan (Return id) i [].
Proof.
  intros Hbs. unfold resolve. destruct (truthy sel) eqn:Hsel; [|by eexists].
  rewrite bind_quiet by auto using quiet_matches with quiet.
  destruct Hbs as [-> | [-> | (l & -> & Hl)]]; [by eexists | by eexists |].
  unfold and_then. cbn [truthy call_find].
  destruct (find_objects sel l i Hl) as (v & -> & [-> | [m ->]]); by eexists.
Qed.

(** X9. Submitting while the props hold no conference: the analytics event
    is sent, then the call of [startRecording] throws a [TypeError]; nothing
    is recorded and the state is unchanged. *)
Theorem submit_without_conference i :
  truthy (key_of i) = true →
  listed (field (state i) "broadcasts") →
  (∀ c, field (props i) "_conference" ≠ VConference c) →
  _onSubmit i = mkRan (Throw TypeError) i [confirm].
Proof.
  intros Hk Hbs Hc. rewrite onSubmit_run, Hk.
  destruct (resolve_listed (field (state i) "selectedBoundStreamID") _ i Hbs)
    as [id ->]. cbn [result].
  destruct (field (props i) "_conference") as [| | | | | | |c]; try done.
  by destruct (Hc c).
Qed.

Lemma submit_without_conference_witness :
  _onSubmit no_conference = mkRan (Throw TypeError) no_conference [confirm].
Proof.
  apply (submit_without_conference no_conference).
  - reflexivity.
  - left. reflexivity.
  - intros c. vm_compute. discriminate.
Defined.

(** X10. The broadcast id handed to [startRecording] is the [id] of the
    first broadcast bound to the selected stream: broadcasts bound to it
    further down the list do not count, and what follows the match is not
    read at all, so a hole there does no harm. *)
Theorem submit_takes_first_bound_broadcast i c s pre b post :
  truthy (key_of i) = true →
  field (state i) "selectedBoundStreamID" = VStr s →
  s ≠ "" →
  field (state i) "broadcasts" = VArr (pre ++ VObj b :: post) →
  Forall (unselected (VStr s)) pre →
  field b "boundStreamID" = VStr s →
  field (props i) "_conference" = VConference c →
  _onSubmit i =
    mkRan (Return (VBool true)) i
      [confirm;
       StartRecording c
         {| broadcastId := field b "id"; mode := STREAM; streamId := key_of i |}].
Proof.
  intros Hk Hsel Hs Hbs Hpre Hb Hc.
  rewrite onSubmit_run, Hk, Hsel, Hbs, Hc.
  by rewrite (resolve_first s pre b post i Hs Hpre Hb).
Qed.

Lemma submit_takes_first_bound_broadcast_witness :
  _onSubmit duplicates =
    mkRan (Return (VBool true)) duplicates
      [confirm;
       StartRecording 0
         {| broadcastId := VStr "1"; mode := STREAM; streamId := VStr "XYZ" |}].
Proof.
  etrans.
  - apply (submit_takes_first_bound_broadcast duplicates 0 "b1" [broadcast_2]
             {[ "id" := VStr "1"; "boundStreamID" := VStr "b1" ]}
             [VObj {[ "id" := VStr "9"; "boundStreamID" := VStr "b1" ]}; VNull]);
      [reflexivity | reflexivity | discriminate | reflexivity | | reflexivity
      | reflexivity].
    repeat constructor. eexists. split; reflexivity.
  - reflexivity.
Defined.






(** *** The selector, read by read *)

Lemma leaf_run {S} store feature name (s : S) :
  (f ← lift (get store feature); lift (get f name)) s
  = mkRan (match leaf store feature name with
           | inl e => Throw e
           | inr v => Return v
           end) s [].
Proof.
  unfold leaf, mbind, M_bind, bind, lift.
  destruct (get store feature) as [e|f]; [reflexivity|].
  cbn [ret result final calls app]. by destruct (get f name).
Qed.

Lemma mapStateToProps_run store :
  _mapStateToProps store = mkRan (selected_props store) store [].
Proof.
  unfold _mapStateToProps, selected_props.
  rewrite bind_quiet by apply quiet_read. unfold read at 1. cbn [result].
  do 5 (rewrite bind_quiet by auto with quiet; rewrite leaf_run; cbn [result];
        destruct (leaf store _ _) as [[]|?]; [reflexivity|]).
  reflexivity.
Qed.

Lemma leaf_present store feature name :
  match leaf store feature name with
  | inl _ => present store feature = false
  | inr _ => present store feature = true
  end.
Proof.
  unfold leaf, present.
  destruct (get store feature) as [e|f]; [done|]. by destruct f.
Qed.

Lemma leaf_object (store o : gmap string value) feature name :
  store !! feature = Some (VObj o) →
  leaf (VObj store) feature name = inr (field o name).
Proof. intros Hf. unfold leaf. cbn [get]. by rewrite Hf. Qed.

(** X13. [_mapStateToProps] throws a [TypeError] exactly when one of the
    four features it reads is missing from the store or is [null], and
    returns the props object otherwise; it never changes the store. *)
Theorem mapStateToProps_throws_iff store :
  (result (_mapStateToProps store) = Throw TypeError ↔
   forallb (present store) features = false) ∧
  (forallb (present store) features = true ↔
   ∃ mapped, result (_mapStateToProps store) = Return (VObj mapped)) ∧
  final (_mapStateToProps store) = store ∧
  calls (_mapStateToProps store) = [].
Proof.
  rewrite mapStateToProps_run. cbn [result final calls].
  unfold selected_props, features. cbn [forallb].
  pose proof (leaf_present store "features/base/conference" "conference") as H1.
  pose proof (leaf_present store "features/base/config"
                "googleApiApplicationClientID") as H2.
  pose proof (leaf_present store "features/google-api" "googleAPIState") as H3.
  pose proof (leaf_present store "features/google-api" "profileEmail") as H4.
  pose proof (leaf_present store "features/recording" "streamKey") as H5.
  destruct (leaf store "features/base/conference" _); rewrite H1; cbn [andb].
  { split_and!; try done. split; [done | by intros [? ?]]. }
  destruct (leaf store "features/base/config" _); rewrite H2; cbn [andb].
  { split_and!; try done. split; [done | by intros [? ?]]. }
  destruct (leaf store "features/google-api" "googleAPIState"); rewrite H3;
    cbn [andb].
  { split_and!; try done. split; [done | by intros [? ?]]. }
  destruct (leaf store "features/google-api" "profileEmail");
    [rewrite H4 in H3; discriminate H3|].
  destruct (leaf store "features/recording" _); rewrite H5; cbn [andb].
  { split_and!; try done. split; [done | by intros [? ?]]. }
  split_and!; try done. split; [by eexists | done].
Qed.

(** X14. The props depend on the four features only: two stores that agree
    on them give the same result, whatever else they hold. *)
Theorem mapStateToProps_reads_only_features (store store' : gmap string value) :
  (∀ feature, feature ∈ features → store !! feature = store' !! feature) →
  result (_mapStateToProps (VObj store)) = result (_mapStateToProps (VObj store')).
Proof.
  intros Hagree. rewrite !mapStateToProps_run. cbn [result].
  unfold selected_props, leaf. cbn [get].
  rewrite !(Hagree "features/base/conference"), !(Hagree "features/base/config"),
    !(Hagree "features/google-api"), !(Hagree "features/recording");
    [done | | | |]; unfold features.
  - do 3 apply list_elem_of_further. apply list_elem_of_here.
  - do 2 apply list_elem_of_further. apply list_elem_of_here.
  - apply list_elem_of_further, list_elem_of_here.
  - apply list_elem_of_here.
Qed.

Lemma mapStateToProps_reads_only_features_witness :
  result (_mapStateToProps (VObj busy_store))
  = result (_mapStateToProps (VObj full_store)).
Proof.
  apply (mapStateToProps_reads_only_features busy_store full_store).
  intros feature Hin. unfold features in Hin.
  repeat (apply elem_of_cons in Hin as [-> | Hin]; [by vm_compute|]).
  by apply elem_of_nil in Hin.
Defined.

Lemma full_props_fields (a b c d e : value) :
  field ({[ "_conference" := a;
            "_googleApiApplicationClientID" := b;
            "_googleAPIState" := c;
            "_googleProfileEmail" := d;
            "_streamKey" := e ]} : gmap string value) "_conference" = a ∧
  field ({[ "_conference" := a;
            "_googleApiApplicationClientID" := b;
            "_googleAPIState" := c;
            "_googleProfileEmail" := d;
            "_streamKey" := e ]} : gmap string value) "_streamKey" = e.
Proof.
  unfold field. split.
  - by rewrite lookup_insert_eq.
  - rewrite 4!lookup_insert_ne by done. by rewrite lookup_singleton_eq.
Qed.

(** X15. From the store to the recording: when the store holds the
    conference and the stream key used before, a dialog constructed with the
    props the selector returns submits that key, with [broadcastId: null],
    without anything being typed. *)
Theorem previous_key_is_submitted store conference recording c k mapped :
  store !! "features/base/conference" = Some (VObj conference) →
  conference !! "conference" = Some (VConference c) →
  store !! "features/recording" = Some (VObj recording) →
  recording !! "streamKey" = Some (VStr k) →
  k ≠ "" →
  result (_mapStateToProps (VObj store)) = Return (VObj mapped) →
  _onSubmit (constructor mapped) =
    mkRan (Return (VBool true)) (constructor mapped)
      [confirm;
       StartRecording c
         {| broadcastId := VNull; mode := STREAM; streamId := VStr k |}].
Proof.
  intros Hconf Hc Hrec Hk Hne Hres.
  rewrite mapStateToProps_run in Hres. cbn [result] in Hres.
  unfold selected_props in Hres.
  rewrite (leaf_object store conference _ _ Hconf) in Hres.
  rewrite (leaf_object store recording _ _ Hrec) in Hres.
  unfold field in Hres. rewrite Hc, Hk in Hres. cbn [default] in Hres.
  destruct (leaf _ "features/base/config" _) as [|x2]; [discriminate Hres|].
  destruct (leaf _ "features/google-api" "googleAPIState") as [|x3];
    [discriminate Hres|].
  destruct (leaf _ "features/google-api" "profileEmail") as [|x4];
    [discriminate Hres|].
  injection Hres as <-.
  rewrite onSubmit_run. unfold key_of.
  change (state (constructor ?m)) with (state_with (VStr "")).
  change (props (constructor ?m)) with m.
  destruct (state_with_fields (VStr "")) as (_ & _ & -> & ->).
  destruct (full_props_fields (VConference c) x2 x3 x4 (VStr k)) as [-> ->].
  rewrite or_falsy by done. rewrite (truthy_string k Hne).
  by rewrite resolve_unset.
Qed.

Lemma previous_key_is_submitted_witness :
  _onSubmit (constructor full_props) =
    mkRan (Return (VBool true)) (constructor full_props)
      [confirm;
       StartRecording 0
         {| broadcastId := VNull; mode := STREAM; streamId := VStr "XYZ" |}].
Proof.
  apply (previous_key_is_submitted full_store
           {[ "conference" := VConference 0 ]} {[ "streamKey" := VStr "XYZ" ]}
           0 "XYZ" full_props);
    [by vm_compute | by vm_compute | by vm_compute | by vm_compute
    | discriminate | by vm_compute].
Defined.

Lemma componentDidMount_calls i :
  calls (componentDidMount i) =
    if truthy (field (props i) "_googleApiApplicationClientID")
    then [OnInitializeGoogleApi]
    else [].
Proof.
  unfold componentDidMount, _onInitializeGoogleApi. run_comp.
  by destruct (truthy _).
Qed.

Lemma full_props_clientID (a b c d e : value) :
  field ({[ "_conference" := a;
            "_googleApiApplicationClientID" := b;
            "_googleAPIState" := c;
            "_googleProfileEmail" := d;
            "_streamKey" := e ]} : gmap string value)
    "_googleApiApplicationClientID" = b.
Proof.
  unfold field. rewrite lookup_insert_ne by done. by rewrite lookup_insert_eq.
Qed.

(** X16. From the store to the Google API: a dialog constructed with the
    props the selector returns initialises the Google API when it is
    mounted exactly when the [googleApiApplicationClientID] of the store's
    config is truthy, and not at all when the config has none. *)
Theorem google_api_initialised_from_store store config mapped :
  store !! "features/base/config" = Some (VObj config) →
  result (_mapStateToProps (VObj store)) = Return (VObj mapped) →
  calls (componentDidMount (constructor mapped)) =
    (if truthy (field config "googleApiApplicationClientID")
     then [OnInitializeGoogleApi]
     else []) ∧
  (config !! "googleApiApplicationClientID" = None →
   calls (componentDidMount (constructor mapped)) = []).
Proof.
  intros Hconfig Hres.
  rewrite mapStateToProps_run in Hres. cbn [result] in Hres.
  unfold selected_props in Hres.
  rewrite (leaf_object store config _ _ Hconfig) in Hres.
  destruct (leaf _ "features/base/conference" _) as [|x1]; [discriminate Hres|].
  destruct (leaf _ "features/google-api" "googleAPIState") as [|x3];
    [discriminate Hres|].
  destruct (leaf _ "features/google-api" "profileEmail") as [|x4];
    [discriminate Hres|].
  destruct (leaf _ "features/recording" _) as [|x5]; [discriminate Hres|].
  injection Hres as <-.
  rewrite componentDidMount_calls.
  change (props (constructor ?m)) with m.
  rewrite full_props_clientID. split; [done|].
  intros Hnone. by rewrite (field_missing _ _ Hnone).
Qed.

Lemma google_api_initialised_from_store_witness :
  calls (componentDidMount (constructor full_props)) = [OnInitializeGoogleApi].
Proof.
  destruct (google_api_initialised_from_store full_store
              {[ "googleApiApplicationClientID" := VStr "client-id" ]} full_props)
    as [Hcalls _]; [by vm_compute | by vm_compute |].
  exact Hcalls.
Defined.

End Behaviour.
